(** * replicant server: the HTTP request pipeline of [server/server.go]

    A shallow embedding of the [server] package: the status-capturing
    response writer, the three middlewares ([recovery], [logger],
    [basicAuth]), handler registration and the server life cycle
    ([New], [Start], [Close]).

    Go values are modelled as follows.
    - [int], [int64] and [time.Duration] are [Z]; arithmetic that can
      overflow is wrapped to 64 bits ([wrap_int]).
    - [string] and [[]byte] are [string].
    - [error] is [option error]: [None] is Go's [nil].
    - [http.ResponseWriter] is an interface, hence a type class; a
      handler is polymorphic in the writer it is given.
    - A handler call threads the writer and the process environment
      (log sink, monotonic clock) and ends by returning or by panicking.
    - Pointers to routers and managers are addresses into a store. *)

From Stdlib Require Import ZArith String List Bool Lia.
From stdpp Require Import base option gmap.
Import ListNotations.
Local Open Scope string_scope.
Local Open Scope Z_scope.

Set Implicit Arguments.

(** ** Machine integers *)

(** Go's [int] on a 64-bit platform: two's complement wrap-around. *)
Definition wrap_int (z : Z) : Z :=
  (z + 2 ^ 63) mod 2 ^ 64 - 2 ^ 63.

(** ** Errors *)

(** The [error] values the package creates or tests for:
    [http.ErrServerClosed] is a sentinel compared by identity,
    [fmt.Errorf] with [%w] builds a wrapper, everything else is an
    opaque error with a message. *)
#[warnings="-register-all"]
Inductive error : Type :=
| ErrServerClosed
| errorString (s : string)
| wrapError (msg : string) (err : option error).

Definition error_Error (e : error) : string :=
  match e with
  | ErrServerClosed => "http: Server closed"
  | errorString s => s
  | wrapError msg _ => msg
  end.

(** [err != http.ErrServerClosed] on an interface value. *)
Definition is_ErrServerClosed (err : option error) : bool :=
  match err with
  | Some ErrServerClosed => true
  | _ => false
  end.

(** [fmt.Errorf(prefix + "%w", err)]: always a non-nil wrapper. *)
Definition fmt_Errorf_w (prefix : string) (err : option error) : error :=
  wrapError (prefix ++ match err with
                       | Some e => error_Error e
                       | None => "%!w(<nil>)"
                       end) err.

(** ** The logging sink *)

Inductive Level : Type := LevelInfo | LevelError.

Inductive Field : Type :=
| FString (key value : string)
| FInt (key : string) (value : Z).

Record Entry : Type := mkEntry {
  level : Level;
  message : string;
  fields : list Field
}.

(** The part of the process a handler can observe and change besides
    the response writer: the entries written to the log so far and the
    reading of the monotonic clock in nanoseconds. *)
Record Env : Type := mkEnv {
  logs : list Entry;
  now : Z
}.

(** Modelled from the spec: the [log] package of the repository is not
    part of the sources at hand. Its contract is
    [emit(level, message, key-value fields...)], write-only: the chain
    [log.Info(msg).String(k, v)...Log()] appends one entry. *)
Definition log_emit (l : Level) (msg : string) (fs : list Field) (env : Env) : Env :=
  {| logs := logs env ++ [mkEntry l msg fs]; now := now env |}.

Definition log_Info := log_emit LevelInfo.
Definition log_Error := log_emit LevelError.

(** [time.Now()] and [time.Since(start)] on the monotonic clock, and
    [Duration.Milliseconds()] (integer division truncating to zero). *)
Definition time_Now (env : Env) : Z := now env.
Definition time_Since (start : Z) (env : Env) : Z := now env - start.
Definition Milliseconds (d : Z) : Z := Z.quot d 1000000.

(** ** Requests *)

Record Request : Type := mkRequest {
  Method : string;
  URL : string;                           (* r.URL.String() *)
  RemoteAddr : string;
  credentials : option (string * string)  (* decoded Authorization: Basic header *)
}.

(** [r.BasicAuth()]: username, password and whether the header was
    present and well formed. *)
Definition BasicAuth (r : Request) : string * string * bool :=
  match credentials r with
  | Some (username, password) => (username, password, true)
  | None => ("", "", false)
  end.

Definition Params : Type := list (string * string).

(** ** Response writers *)

(** The [http.ResponseWriter] interface. [Header_Set k v] stands for
    [w.Header().Set(k, v)]. [Write] returns the number of bytes the
    writer accepted and its error. *)
Class ResponseWriter (W : Type) : Type := {
  Header_Set : string -> string -> W -> W;
  WriteHeader : Z -> W -> W;
  Write : string -> W -> (Z * option error) * W
}.

(** [statusWriter] decorates a writer and records status and length.
    [embedded] is the embedded [http.ResponseWriter] field. *)
Record statusWriter (W : Type) : Type := mkStatusWriter {
  embedded : W;
  status : Z;
  length : Z
}.
Arguments mkStatusWriter {W} _ _ _.

Section StatusWriter.
Context {W : Type} `{!ResponseWriter W}.

(** [Header] is promoted from the embedded writer. *)
Definition statusWriter_Header_Set (k v : string) (w : statusWriter W)
  : statusWriter W :=
  mkStatusWriter (Header_Set k v (embedded w)) (status w) (length w).

Definition statusWriter_WriteHeader (st : Z) (w : statusWriter W)
  : statusWriter W :=
  mkStatusWriter (WriteHeader st (embedded w)) st (length w).

Definition statusWriter_Write (b : string) (w : statusWriter W)
  : (Z * option error) * statusWriter W :=
  let status' := if status w =? 0 then 200 else status w in
  let '((n, err), inner) := Write b (embedded w) in
  ((n, err), mkStatusWriter inner status' (wrap_int (length w + n))).

#[export] Instance statusWriter_ResponseWriter : ResponseWriter (statusWriter W) := {
  Header_Set := statusWriter_Header_Set;
  WriteHeader := statusWriter_WriteHeader;
  Write := statusWriter_Write
}.
End StatusWriter.

(** A response recorder in the manner of [httptest.ResponseRecorder]:
    the first [WriteHeader] fixes the code, a [Write] before any
    [WriteHeader] implies 200, every byte is accepted. *)
Record Recorder : Type := mkRecorder {
  rec_header : list (string * string);
  rec_code : Z;
  rec_wroteHeader : bool;
  rec_body : string
}.

Definition Recorder_new : Recorder := mkRecorder [] 200 false "".

Definition Recorder_Header_Set (k v : string) (rw : Recorder) : Recorder :=
  mkRecorder ((k, v) :: List.filter (fun kv => negb (String.eqb (fst kv) k)) (rec_header rw))
             (rec_code rw) (rec_wroteHeader rw) (rec_body rw).

Definition Recorder_WriteHeader (code : Z) (rw : Recorder) : Recorder :=
  if rec_wroteHeader rw then rw
  else mkRecorder (rec_header rw) code true (rec_body rw).

Definition Recorder_Write (b : string) (rw : Recorder) : (Z * option error) * Recorder :=
  let rw' := Recorder_WriteHeader 200 rw in
  ((Z.of_nat (String.length b), None),
   mkRecorder (rec_header rw') (rec_code rw') true (rec_body rw' ++ b)).

#[export] Instance Recorder_ResponseWriter : ResponseWriter Recorder := {
  Header_Set := Recorder_Header_Set;
  WriteHeader := Recorder_WriteHeader;
  Write := Recorder_Write
}.

(** ** The Go runtime and standard library *)

(** What the package takes from the runtime and from [fmt],
    [encoding/json] and [runtime/debug]. [any] is the type of the
    values a panic can carry ([interface{}]). A panic always carries a
    value ([panic(nil)] carries a [*runtime.PanicNilError] since Go
    1.21), so [recover()] is non-nil exactly when the deferred call
    runs during a panic. [json_Marshal] is applied to a
    [map[string]interface{}], given as its key-value pairs, and returns
    the encoding and the marshalling error. [debug_Stack] is the
    formatted trace of the calling goroutine, never empty. *)
Class GoRuntime : Type := {
  any : Type;
  any_string : string -> any;
  fmt_Sprintf_s : any -> string;
  json_Marshal : list (string * any) -> string * option error;
  debug_Stack : Env -> string;
  debug_Stack_nonempty : forall env, debug_Stack env <> ""
}.

Definition LF : string := String (Ascii.ascii_of_nat 10) EmptyString.

(** [http.StatusText] on the codes the package uses. *)
Definition http_StatusText (code : Z) : string :=
  if code =? 401 then "Unauthorized"
  else if code =? 500 then "Internal Server Error"
  else if code =? 200 then "OK"
  else "".

Definition http_StatusUnauthorized : Z := 401.
Definition http_StatusInternalServerError : Z := 500.

(** [http.Error(w, error, code)]: two headers, the status line and the
    message followed by a newline. *)
Definition http_Error {W : Type} `{!ResponseWriter W}
    (w : W) (error : string) (code : Z) : W :=
  let w1 := Header_Set "Content-Type" "text/plain; charset=utf-8" w in
  let w2 := Header_Set "X-Content-Type-Options" "nosniff" w1 in
  let w3 := WriteHeader code w2 in
  snd (Write (error ++ LF) w3).

(** ** Handlers and middleware *)

Section Middleware.
Context {rt : GoRuntime}.

(** How a call ends: it returns, or it panics with a value. *)
Inductive Outcome : Type :=
| Returned
| Panicked (v : any).

(** [httprouter.Handle]: [func(http.ResponseWriter, *http.Request, Params)].
    The call yields the way it ended, the writer and the environment
    as the call left them. *)
Definition Handler : Type :=
  forall (W : Type), ResponseWriter W ->
    W -> Request -> Params -> Env -> Outcome * W * Env.

(** recovery middleware. The deferred function runs on both exits of
    [h]; [recover()] is non-nil on the panicking one only. *)
Definition recovery (h : Handler) : Handler :=
  fun W _ w r p env =>
    match h W _ w r p env with
    | (Returned, w', env') => (Returned, w', env')
    | (Panicked err, w', env') =>
        let env'' :=
          log_Error "recovered from panic"
            [FString "error" (fmt_Sprintf_s err);
             FString "stack" (debug_Stack env')] env' in
        let '(jsonBody, _) :=
          json_Marshal
            [("message", any_string "There was an internal server error");
             ("error", err)] in
        let w1 := Header_Set "Content-Type" "application/json" w' in
        let w2 := WriteHeader http_StatusInternalServerError w1 in
        let '(_, w3) := Write jsonBody w2 in
        (Returned, w3, env'')
    end.

(** logger middleware. It has no deferred call: a panic of [h] passes
    through and the entry is not written. *)
Definition logger (h : Handler) : Handler :=
  fun W _ w r p env =>
    let start := time_Now env in
    let sw := mkStatusWriter w 0 0 in
    match h (statusWriter W) _ sw r p env with
    | (Returned, sw', env') =>
        (Returned, embedded sw',
         log_Info "api request"
           [FString "method" (Method r);
            FString "uri" (URL r);
            FString "requester" (RemoteAddr r);
            FInt "status" (status sw');
            FInt "content_length" (length sw');
            FInt "duration_ms" (Milliseconds (time_Since start env'))]
           env')
    | (Panicked v, sw', env') => (Panicked v, embedded sw', env')
    end.

(** basic auth middleware. The results of [r.BasicAuth()] are bound to
    [user] and [password], which hides the parameters of the same
    names for the rest of the closure. *)
Definition basicAuth (h : Handler) (user password : string) : Handler :=
  fun W _ w r ps env =>
    let '(user, password, hasAuth) := BasicAuth r in
    if hasAuth && String.eqb user user && String.eqb password password
    then h W _ w r ps env
    else (Returned,
          http_Error w (http_StatusText http_StatusUnauthorized)
            http_StatusUnauthorized,
          env).

(** The check the specification describes: the extracted pair is
    compared with the configured pair. *)
Definition basicAuth_spec (h : Handler) (user password : string) : Handler :=
  fun W _ w r ps env =>
    let '(u, pw, hasAuth) := BasicAuth r in
    if hasAuth && String.eqb u user && String.eqb pw password
    then h W _ w r ps env
    else (Returned,
          http_Error w (http_StatusText http_StatusUnauthorized)
            http_StatusUnauthorized,
          env).
End Middleware.

(** ** The server *)

(** Addresses of routers and managers. *)
Definition ptr : Type := positive.

Module net_http.
(** The fields of [http.Server] the package sets; [Handler] is the
    router the transport dispatches to, [None] being [nil]. *)
Record Server : Type := mkServer {
  Addr : string;
  WriteTimeout : Z;
  ReadTimeout : Z;
  ReadHeaderTimeout : Z;
  Handler : option ptr
}.

(** [&http.Server{}]: every field has its zero value. *)
Definition zero : Server := mkServer "" 0 0 0 None.

Definition set_Addr (a : string) (s : Server) : Server :=
  mkServer a (WriteTimeout s) (ReadTimeout s) (ReadHeaderTimeout s) (Handler s).
Definition set_WriteTimeout (d : Z) (s : Server) : Server :=
  mkServer (Addr s) d (ReadTimeout s) (ReadHeaderTimeout s) (Handler s).
Definition set_ReadTimeout (d : Z) (s : Server) : Server :=
  mkServer (Addr s) (WriteTimeout s) d (ReadHeaderTimeout s) (Handler s).
Definition set_ReadHeaderTimeout (d : Z) (s : Server) : Server :=
  mkServer (Addr s) (WriteTimeout s) (ReadTimeout s) d (Handler s).
Definition set_Handler (h : option ptr) (s : Server) : Server :=
  mkServer (Addr s) (WriteTimeout s) (ReadTimeout s) (ReadHeaderTimeout s) h.
End net_http.

(** Config for replicant server *)
Record Config : Type := mkConfig {
  Username : string;
  Password : string;
  ListenAddress : string;
  WriteTimeout : Z;
  ReadTimeout : Z;
  ReadHeaderTimeout : Z
}.

(** Server is an replicant manager and api server *)
Record Server : Type := mkServer {
  config : Config;
  http : net_http.Server;
  router : ptr;
  manager : ptr
}.

(** New creates a new replicant server *)
Definition New (config : Config) (m : ptr) (r : ptr) : Server * option error :=
  let h0 := net_http.zero in
  let h1 := net_http.set_Addr (ListenAddress config) h0 in
  let h2 := if negb (WriteTimeout config =? 0)
            then net_http.set_WriteTimeout (WriteTimeout config) h1 else h1 in
  let h3 := if negb (ReadTimeout config =? 0)
            then net_http.set_ReadTimeout (ReadTimeout config) h2 else h2 in
  let h4 := if negb (ReadHeaderTimeout config =? 0)
            then net_http.set_ReadHeaderTimeout (ReadHeaderTimeout config) h3 else h3 in
  let h5 := net_http.set_Handler (Some r) h4 in
  (mkServer config h5 r m, None).

(** Router returns this server http router *)
Definition Router (s : Server) : ptr := router s.

(** Manager returns this server replicant manager *)
Definition Manager (s : Server) : ptr := manager s.

(** *** Transport and manager *)

(** The collaborators behind [Start] and [Close]: the transport of
    [net/http] and the [manager] package. [World] is their state,
    [context_Context] is [context.Context]. *)
Class Collaborators : Type := {
  World : Type;
  context_Context : Type;
  ListenAndServe : net_http.Server -> World -> option error * World;
  Shutdown : context_Context -> net_http.Server -> World -> option error * World;
  manager_Close : ptr -> World -> option error * World
}.

Section Lifecycle.
Context {co : Collaborators}.

(** Start serving *)
Definition Start (s : Server) (wd : World) : option error * World :=
  let '(err, wd') := ListenAndServe (http s) wd in
  if negb (is_ErrServerClosed err)
  then (Some (fmt_Errorf_w "server: error starting http: " err), wd')
  else (None, wd').

(** Close this server *)
Definition Close (ctx : context_Context) (s : Server) (wd : World) : option error * World :=
  let '(_, wd1) := Shutdown ctx (http s) wd in
  manager_Close (manager s) wd1.
End Lifecycle.

(** *** Registration *)

Section Registration.
Context {rt : GoRuntime}.

(** ServerHandler is handler that has access to the server *)
Definition ServerHandler : Type := Server -> Handler.

(** Modelled from the spec: [httprouter] is consumed through the
    contract [register(method, path, handler)]. A router is the list
    of its routes in the order of registration. *)
Definition Route : Type := string * string * Handler.

Definition httprouter_Handle (method path : string) (handle : Handler)
    (routes : list Route) : list Route :=
  routes ++ [(method, path, handle)].

(** The state registration works on: the routers in the store and the
    process environment. *)
Record Process : Type := mkProcess {
  routers : gmap ptr (list Route);
  penv : Env
}.

(** [s.router.Handle(method, path, h)] through the pointer; [None]
    when [s.router] points to no router (Go dereferences nil and the
    registration dies). *)
Definition router_Handle (s : Server) (method path : string) (h : Handler)
    (ps : Process) : option Process :=
  match routers ps !! router s with
  | Some routes =>
      Some (mkProcess
              (<[router s := httprouter_Handle method path h routes]> (routers ps))
              (penv ps))
  | None => None
  end.

Definition log_adding_handler (method path : string) (ps : Process) : Process :=
  mkProcess (routers ps)
    (log_Info "adding handler"
       [FString "path" path; FString "method" method] (penv ps)).

(** AddHandler adds a handler for the given method and path *)
Definition AddHandler (method path : string) (handler : Handler)
    (s : Server) (ps : Process) : option Process :=
  let ps1 := log_adding_handler method path ps in
  let handler :=
    if negb (String.eqb (Username (config s)) "")
       && negb (String.eqb (Password (config s)) "")
    then basicAuth handler (Username (config s)) (Password (config s))
    else handler in
  router_Handle s method path (logger (recovery handler)) ps1.

(** AddServerHandler adds a handler for the given method and path *)
Definition AddServerHandler (method path : string) (handler : ServerHandler)
    (s : Server) (ps : Process) : option Process :=
  let ps1 := log_adding_handler method path ps in
  let h :=
    match negb (String.eqb (Username (config s)) "")
          && negb (String.eqb (Password (config s)) "") with
    | true => basicAuth (handler s) (Username (config s)) (Password (config s))
    | false => handler s
    end in
  router_Handle s method path (logger (recovery h)) ps1.

(** The handler a router holds for a method and path, if any. *)
Fixpoint lookup_route (method path : string) (routes : list Route)
  : option Handler :=
  match routes with
  | [] => None
  | (m, p, h) :: rest =>
      if String.eqb m method && String.eqb p path then Some h
      else lookup_route method path rest
  end.
End Registration.

(** ** A concrete runtime and concrete collaborators *)

(** Values a handler of the examples panics with: a string, as in
    [panic("x")], or an error made by [errors.New] or [fmt.Errorf], as
    in [panic(err)]. *)
Inductive GoValue : Type :=
| VString (s : string)
| VError (e : error).

(** [fmt.Sprintf("%s", v)]: the string itself, or [Error()] of an error. *)
Definition GoValue_Sprintf_s (v : GoValue) : string :=
  match v with
  | VString s => s
  | VError e => error_Error e
  end.

Definition DQ : string := String (Ascii.ascii_of_nat 34) EmptyString.
Definition BSL : string := String (Ascii.ascii_of_nat 92) EmptyString.

(** [encoding/json] string quoting. Quote, backslash, newline, carriage
    return and tab are escaped; the other bytes are copied, which is
    what Go does for printable ASCII other than the three characters
    it escapes for HTML. *)
Fixpoint json_escape (s : string) : string :=
  match s with
  | EmptyString => EmptyString
  | String c rest =>
      let n := Ascii.nat_of_ascii c in
      (if Nat.eqb n 34 then BSL ++ DQ
       else if Nat.eqb n 92 then BSL ++ BSL
       else if Nat.eqb n 10 then BSL ++ "n"
       else if Nat.eqb n 13 then BSL ++ "r"
       else if Nat.eqb n 9 then BSL ++ "t"
       else String c EmptyString) ++ json_escape rest
  end.

Definition json_quote (s : string) : string := DQ ++ json_escape s ++ DQ.

(** [json.Marshal] of a value held in an [interface{}]: a string is
    quoted; an error of [errors] or [fmt] is a pointer to a struct
    without exported fields, which encodes as the empty object. *)
Definition GoValue_json (v : GoValue) : string :=
  match v with
  | VString s => json_quote s
  | VError _ => "{}"
  end.

(** Map keys are written in sorted order. *)
Fixpoint insert_by_key (kv : string * GoValue) (l : list (string * GoValue))
  : list (string * GoValue) :=
  match l with
  | [] => [kv]
  | kv' :: rest =>
      if String.leb (fst kv) (fst kv') then kv :: l
      else kv' :: insert_by_key kv rest
  end.

Definition sort_by_key (l : list (string * GoValue)) : list (string * GoValue) :=
  fold_right insert_by_key [] l.

Fixpoint json_members (l : list (string * GoValue)) : string :=
  match l with
  | [] => ""
  | [(k, v)] => json_quote k ++ ":" ++ GoValue_json v
  | (k, v) :: rest => json_quote k ++ ":" ++ GoValue_json v ++ "," ++ json_members rest
  end.

Definition GoValue_json_Marshal (m : list (string * GoValue)) : string * option error :=
  ("{" ++ json_members (sort_by_key m) ++ "}", None).

Definition a_stack : string :=
  "goroutine 7 [running]:" ++ LF ++ "runtime/debug.Stack()" ++ LF.

#[export] Instance StdGo : GoRuntime := {
  any := GoValue;
  any_string := VString;
  fmt_Sprintf_s := GoValue_Sprintf_s;
  json_Marshal := GoValue_json_Marshal;
  debug_Stack := fun _ => a_stack;
  debug_Stack_nonempty := fun _ => ltac:(discriminate)
}.

(** A scripted transport and manager: each call is recorded and
    answers with the result fixed in advance. *)
Inductive Event : Type :=
| EvListenAndServe (srv : net_http.Server)
| EvShutdown (deadline : Z) (srv : net_http.Server)
| EvManagerClose (m : ptr).

Record Script : Type := mkScript {
  trace : list Event;
  serve_result : option error;
  shutdown_result : option error;
  close_result : option error
}.

Definition record_event (e : Event) (sc : Script) : Script :=
  mkScript (trace sc ++ [e]) (serve_result sc) (shutdown_result sc) (close_result sc).

#[export] Instance Scripted : Collaborators := {
  World := Script;
  context_Context := Z;
  ListenAndServe := fun srv sc => (serve_result sc, record_event (EvListenAndServe srv) sc);
  Shutdown := fun ctx srv sc => (shutdown_result sc, record_event (EvShutdown ctx srv) sc);
  manager_Close := fun m sc => (close_result sc, record_event (EvManagerClose m) sc)
}.

(** ** Vocabulary of the statements *)

(** Successive [Write] calls on a status writer. *)
Definition write_all {W : Type} `{!ResponseWriter W}
    (bs : list string) (sw : statusWriter W) : statusWriter W :=
  fold_left (fun acc b => snd (Write b acc)) bs sw.

(** The error a caller would see if the first failure of the two steps
    of a shutdown were reported. *)
Definition first_error (e1 e2 : option error) : option error :=
  match e1 with
  | Some e => Some e
  | None => e2
  end.

(** Both credentials are configured non-empty. *)
Definition credentials_configured (cfg : Config) : bool :=
  negb (String.eqb (Username cfg) EmptyString)
  && negb (String.eqb (Password cfg) EmptyString).

(** The entry [logger] writes for a request. *)
Definition api_request (r : Request) (st len duration_ms : Z) : Entry :=
  mkEntry LevelInfo "api request"
    [FString "method" (Method r);
     FString "uri" (URL r);
     FString "requester" (RemoteAddr r);
     FInt "status" st;
     FInt "content_length" len;
     FInt "duration_ms" duration_ms].

(** The three calls by which [recovery] writes its response. *)
Definition write_500 {W : Type} `{!ResponseWriter W} (body : string) (w : W) : W :=
  snd (Write body
         (WriteHeader 500 (Header_Set "Content-Type" "application/json" w))).

(** The response of a failed auth check. *)
Definition unauthorized {W : Type} `{!ResponseWriter W} (w : W) : W :=
  http_Error w "Unauthorized" 401.

Section Vocabulary.
Context {rt : GoRuntime}.

(** The business handler behind the auth check, when one is configured. *)
Definition guarded (s : Server) (h : Handler) : Handler :=
  if credentials_configured (config s)
  then basicAuth h (Username (config s)) (Password (config s))
  else h.

(** The chain the code registers, and the chain in the order C2 gives. *)
Definition registered_chain (s : Server) (h : Handler) : Handler :=
  logger (recovery (guarded s h)).

Definition claimed_chain (s : Server) (h : Handler) : Handler :=
  recovery (logger (guarded s h)).

(** The handler the router of [s] holds for a method and path after a
    registration. *)
Definition stored (s : Server) (method path : string) (ps : option Process)
  : option Handler :=
  match ps with
  | Some ps' =>
      match routers ps' !! router s with
      | Some routes => lookup_route method path routes
      | None => None
      end
  | None => None
  end.

(** The entry [recovery] writes for a panic with value [v]. *)
Definition recovered_from_panic (v : any) (env : Env) : Entry :=
  mkEntry LevelError "recovered from panic"
    [FString "error" (fmt_Sprintf_s v); FString "stack" (debug_Stack env)].

(** The map [recovery] hands to [json.Marshal], and the map whose error
    member is the description of the fault, as [fmt] renders it. *)
Definition error_body (v : any) : list (string * any) :=
  [("message", any_string "There was an internal server error"); ("error", v)].

Definition described_body (v : any) : list (string * any) :=
  [("message", any_string "There was an internal server error");
   ("error", any_string (fmt_Sprintf_s v))].

End Vocabulary.

(** ** Calls on a writer *)

(** What a handler can do with the writer it is given, as data: a
    handler's use of its writer is a sequence of such calls. *)
Inductive WriterCall : Type :=
| CallHeaderSet (k v : string)
| CallWriteHeader (st : Z)
| CallWrite (b : string).

Definition is_WriteHeader (c : WriterCall) : bool :=
  match c with
  | CallWriteHeader _ => true
  | _ => false
  end.

Definition is_Write (c : WriterCall) : bool :=
  match c with
  | CallWrite _ => true
  | _ => false
  end.

Section Calls.
Context {W : Type} `{!ResponseWriter W}.

Definition do_call (c : WriterCall) (w : W) : W :=
  match c with
  | CallHeaderSet k v => Header_Set k v w
  | CallWriteHeader st => WriteHeader st w
  | CallWrite b => snd (Write b w)
  end.

Definition run_calls (cs : list WriterCall) (w : W) : W :=
  fold_left (fun acc c => do_call c acc) cs w.

(** The byte count a call returns: what [Write] reports, 0 for the
    calls that return nothing. *)
Definition returned_count (c : WriterCall) (w : W) : Z :=
  match c with
  | CallWrite b => fst (fst (Write b w))
  | _ => 0
  end.

(** The sum of the byte counts the [Write] calls of [cs] return when
    the calls are made in turn from [w]. *)
Fixpoint accepted (cs : list WriterCall) (w : W) : Z :=
  match cs with
  | [] => 0
  | c :: rest => returned_count c w + accepted rest (do_call c w)
  end.

End Calls.

(** The range of Go's [int]. *)
Definition in_int_range (z : Z) : Prop := - 2 ^ 63 <= z < 2 ^ 63.

(** [errors.Unwrap]: the error a [%w] wrapper holds. *)
Definition errors_Unwrap (e : error) : option error :=
  match e with
  | wrapError _ inner => inner
  | _ => None
  end.

(** A handler that makes the calls [cs] on its writer, takes [elapsed]
    nanoseconds and returns. *)
Definition calling_handler {rt : GoRuntime} (cs : list WriterCall) (elapsed : Z)
  : Handler :=
  fun W _ w r p env =>
    (Returned, run_calls cs w, mkEnv (logs env) (now env + elapsed)).


(** ** Scenarios *)

Definition env0 : Env := mkEnv [] 1000000000.

Definition a_config : Config :=
  mkConfig EmptyString EmptyString ":8080" 0 0 0.

Definition secured_config : Config :=
  mkConfig "admin" "s3cret" ":8080" 0 0 0.

(** Two servers on the router at address 2, the second with
    credentials, and the state in which that router is still empty. *)
Definition a_server : Server := fst (New a_config 1%positive 2%positive).

Definition secured_server : Server :=
  fst (New secured_config 1%positive 2%positive).

Definition a_process : Process :=
  mkProcess {[ 2%positive := [] ]} env0.

Definition deadline_exceeded : error := errorString "context deadline exceeded".

(** A transport whose shutdown runs into the deadline, with a manager
    that closes cleanly. *)
Definition stuck_transport : Script :=
  mkScript [] None (Some deadline_exceeded) None.

(** A transport that shuts down in time, with a manager whose close
    fails. *)
Definition clean_transport : Script :=
  mkScript [] None None (Some (errorString "manager: close failed")).

(** A serve loop that ends because the server was closed, and one that
    ends because the address is taken. *)
Definition closed_loop : Script :=
  mkScript [] (Some ErrServerClosed) None None.

Definition failed_loop : Script :=
  mkScript [] (Some (errorString "listen tcp :8080: bind: address already in use"))
    None None.

(** A handler that answers 200 with a two-byte body and takes three
    milliseconds. *)
Definition ok_handler : @Handler StdGo :=
  fun W _ w r p env =>
    (Returned, snd (Write "ok" (WriteHeader 200 w)),
     mkEnv (logs env) (now env + 3000000)).

(** [panic("x")] and [panic(errors.New("boom"))]. *)
Definition boom : @Handler StdGo :=
  fun W _ w r p env => (Panicked (VString "x"), w, env).

Definition boom_err : @Handler StdGo :=
  fun W _ w r p env => (Panicked (VError (errorString "boom")), w, env).

(** A handler that serves a protected resource. *)
Definition secret_handler : @Handler StdGo :=
  fun W _ w r p env =>
    (Returned, snd (Write "secret" (WriteHeader 200 w)), env).

Definition a_request : Request :=
  mkRequest "GET" "/health" "10.0.0.9:4242" None.

(** A request that presents a pair other than the configured one. *)
Definition wrong_request : Request :=
  mkRequest "GET" "/secret" "10.0.0.9:4242" (Some ("mallory", "guess")).

(** A serve loop that ends with an error that wraps
    [http.ErrServerClosed] without being it. *)
Definition wrapped_closed_loop : Script :=
  mkScript []
    (Some (wrapError "accept: http: Server closed" (Some ErrServerClosed)))
    None None.


(** A request with no Authorization header. *)
Definition anonymous_request : Request :=
  mkRequest "GET" "/secret" "10.0.0.9:4242" None.

(** * Properties *)

(** ** The status-capturing writer *)

(** Unfolds one [Write] on a status writer and names the results of
    the call on the embedded writer. *)
Ltac unfold_sw_Write :=
  cbn; unfold statusWriter_Write;
  match goal with
  | |- context [Write ?b (embedded ?sw)] =>
      destruct (Write b (embedded sw)) as [[? ?] ?]
  end.

Section StatusWriterFacts.
Context {W : Type} `{!ResponseWriter W}.

Lemma statusWriter_Write_status (b : string) (sw : statusWriter W) :
  status (snd (Write b sw)) = if status sw =? 0 then 200 else status sw.
Proof. unfold_sw_Write. reflexivity. Qed.

Lemma statusWriter_Write_length (b : string) (sw : statusWriter W) :
  length (snd (Write b sw))
  = wrap_int (length sw + fst (fst (Write b (embedded sw)))).
Proof. unfold_sw_Write. reflexivity. Qed.

Lemma statusWriter_Write_embedded (b : string) (sw : statusWriter W) :
  embedded (snd (Write b sw)) = snd (Write b (embedded sw)).
Proof. unfold_sw_Write. reflexivity. Qed.

Lemma statusWriter_Write_result (b : string) (sw : statusWriter W) :
  fst (Write b sw) = fst (Write b (embedded sw)).
Proof. unfold_sw_Write. reflexivity. Qed.

Lemma statusWriter_WriteHeader_fields (st : Z) (sw : statusWriter W) :
  status (WriteHeader st sw) = st
  /\ length (WriteHeader st sw) = length sw
  /\ embedded (WriteHeader st sw) = WriteHeader st (embedded sw).
Proof. repeat split. Qed.

End StatusWriterFacts.

Lemma wrap_int_small (z : Z) :
  - 2 ^ 63 <= z < 2 ^ 63 -> wrap_int z = z.
Proof.
  intros Hz. unfold wrap_int.
  rewrite Z.mod_small by lia. lia.
Qed.

Lemma write_all_keeps_200 {W : Type} `{!ResponseWriter W}
    (bs : list string) (sw : statusWriter W) :
  status sw = 200 -> status (write_all bs sw) = 200.
Proof.
  revert sw. induction bs as [|b bs IH]; intros sw Hsw; [exact Hsw|].
  cbn [write_all fold_left]. apply IH.
  rewrite statusWriter_Write_status, Hsw. reflexivity.
Qed.

(** C6. On the status-capturing writer, [Write] calls that come before
    any [WriteHeader] leave the recorded status at 200; and on a fresh
    writer, [WriteHeader(403)] followed by two [Write] calls for which
    the underlying writer reports 5 and 7 bytes leaves the recorded
    status at 403 and the recorded byte count at 12. *)
Theorem statusWriter_records_status_and_length
    (W : Type) (RW : ResponseWriter W) :
  (forall (w : W) (b : string) (bs : list string),
     status (write_all (b :: bs) (mkStatusWriter w 0 0)) = 200)
  /\
  (forall (w : W) (b1 b2 : string),
     let w1 := WriteHeader 403 w in
     let w2 := snd (Write b1 w1) in
     fst (fst (Write b1 w1)) = 5 ->
     fst (fst (Write b2 w2)) = 7 ->
     let sw := snd (Write b2 (snd (Write b1 (WriteHeader 403 (mkStatusWriter w 0 0))))) in
     status sw = 403 /\ length sw = 12).
Proof.
  split.
  - intros w b bs. cbn [write_all fold_left].
    apply write_all_keeps_200.
    rewrite statusWriter_Write_status. reflexivity.
  - intros w b1 b2 w1 w2 H5 H7 sw. subst sw.
    rewrite statusWriter_Write_status, statusWriter_Write_length.
    rewrite statusWriter_Write_status, statusWriter_Write_length.
    rewrite statusWriter_Write_embedded.
    cbn [status length embedded WriteHeader statusWriter_ResponseWriter
         statusWriter_WriteHeader].
    fold w1. rewrite H5. fold w2. rewrite H7.
    split; reflexivity.
Qed.

(** The scenario of C6 on the response recorder: the bodies have 5 and
    7 bytes and the recorder accepts them whole. *)
Lemma statusWriter_records_status_and_length_witness :
  status (write_all ["hello"; "goodbye"] (mkStatusWriter Recorder_new 0 0)) = 200
  /\ (status (snd (Write "goodbye"
                (snd (Write "hello"
                   (WriteHeader 403 (mkStatusWriter Recorder_new 0 0)))))) = 403
      /\ length (snd (Write "goodbye"
                (snd (Write "hello"
                   (WriteHeader 403 (mkStatusWriter Recorder_new 0 0)))))) = 12).
Proof.
  split.
  - exact (proj1 (statusWriter_records_status_and_length Recorder_ResponseWriter)
             Recorder_new "hello" ["goodbye"]).
  - exact (proj2 (statusWriter_records_status_and_length Recorder_ResponseWriter)
             Recorder_new "hello" "goodbye" eq_refl eq_refl).
Defined.

(** ** Construction and life cycle *)

(** C9. [New] returns, without error, a server that keeps the config,
    the manager and the router it was given, whose transport listens on
    the configured address, whose three timeouts are the configured
    ones where these are nonzero and the transport's defaults where
    they are zero, and whose transport handler is the router; [Start]
    serves with that transport. *)
Theorem New_assembles_transport (cfg : Config) (m r : ptr) :
  let s := fst (New cfg m r) in
  snd (New cfg m r) = None
  /\ config s = cfg /\ manager s = m /\ router s = r
  /\ net_http.Addr (http s) = ListenAddress cfg
  /\ net_http.WriteTimeout (http s)
     = (if WriteTimeout cfg =? 0
        then net_http.WriteTimeout net_http.zero else WriteTimeout cfg)
  /\ net_http.ReadTimeout (http s)
     = (if ReadTimeout cfg =? 0
        then net_http.ReadTimeout net_http.zero else ReadTimeout cfg)
  /\ net_http.ReadHeaderTimeout (http s)
     = (if ReadHeaderTimeout cfg =? 0
        then net_http.ReadHeaderTimeout net_http.zero else ReadHeaderTimeout cfg)
  /\ net_http.Handler (http s) = Some (router s)
  /\ (forall (co : Collaborators) (wd : World),
        snd (Start s wd) = snd (ListenAndServe (http s) wd)
        /\ net_http.Handler (http s) = Some r).
Proof.
  unfold New. cbn [fst snd config manager router http].
  destruct (WriteTimeout cfg =? 0), (ReadTimeout cfg =? 0),
    (ReadHeaderTimeout cfg =? 0); cbn;
    repeat split; unfold Start; cbn [http];
    match goal with
    | |- context [ListenAndServe ?a ?b] =>
        destruct (ListenAndServe a b) as [err wd'];
        destruct (is_ErrServerClosed err); reflexivity
    end.
Qed.

Section LifecycleFacts.
Context {co : Collaborators}.

Lemma Start_world (s : Server) (wd : World) :
  snd (Start s wd) = snd (ListenAndServe (http s) wd).
Proof.
  unfold Start. destruct (ListenAndServe (http s) wd) as [err wd'].
  destruct (is_ErrServerClosed err); reflexivity.
Qed.

Lemma is_ErrServerClosed_spec (err : option error) :
  is_ErrServerClosed err = true <-> err = Some ErrServerClosed.
Proof.
  destruct err as [[]|]; cbn; split; intros H; try reflexivity;
    try discriminate.
Qed.

(** C7. [Start] returns nil exactly when the listen-and-serve loop ends
    with [http.ErrServerClosed]; for every other way the loop ends it
    returns a non-nil error, which wraps what the loop returned. *)
Theorem Start_reports_fatal_errors_only (s : Server) (wd : World) :
  (fst (Start s wd) = None
   <-> fst (ListenAndServe (http s) wd) = Some ErrServerClosed)
  /\ (fst (Start s wd) <> None
      <-> fst (ListenAndServe (http s) wd) <> Some ErrServerClosed)
  /\ (fst (Start s wd) = None
      \/ fst (Start s wd)
         = Some (fmt_Errorf_w "server: error starting http: "
                   (fst (ListenAndServe (http s) wd)))).
Proof.
  unfold Start. destruct (ListenAndServe (http s) wd) as [err wd'].
  cbn [fst]. pose proof (is_ErrServerClosed_spec err) as Hspec.
  destruct (is_ErrServerClosed err); cbn [negb fst].
  - assert (Herr : err = Some ErrServerClosed) by (apply Hspec; reflexivity).
    split; [|split].
    + split; intros _; [exact Herr | reflexivity].
    + split; intros H; exfalso; apply H; [reflexivity | exact Herr].
    + left; reflexivity.
  - assert (Herr : err <> Some ErrServerClosed)
      by (intros E; apply Hspec in E; discriminate).
    split; [|split].
    + split; intros H; [discriminate H | contradiction].
    + split; intros _; [exact Herr | discriminate].
    + right; reflexivity.
Qed.

End LifecycleFacts.

(** C7 on the scripted transport: a loop that ends because the server
    was closed, and one that ends because the address is taken. *)
Lemma Start_reports_fatal_errors_only_witness :
  fst (Start a_server closed_loop) = None
  /\ fst (Start a_server failed_loop) <> None.
Proof.
  split.
  - exact (proj2 (proj1 (@Start_reports_fatal_errors_only Scripted
                           a_server closed_loop)) eq_refl).
  - exact (proj2 (proj1 (proj2 (@Start_reports_fatal_errors_only Scripted
                                  a_server failed_loop)))
             ltac:(discriminate)).
Defined.

(** C4, as stated, fails: when the shutdown of the transport fails and
    the manager closes cleanly, [Close] returns nil although the first
    error encountered is the shutdown's. *)
Lemma Close_drops_shutdown_error :
  fst (Shutdown 5000 (http a_server) stuck_transport) = Some deadline_exceeded
  /\ fst (Close 5000 a_server stuck_transport) = None
  /\ fst (Close 5000 a_server stuck_transport)
     <> first_error
          (fst (Shutdown 5000 (http a_server) stuck_transport))
          (fst (manager_Close (manager a_server)
                  (snd (Shutdown 5000 (http a_server) stuck_transport)))).
Proof.
  split; [reflexivity|]. split; [reflexivity|].
  cbn. discriminate.
Qed.

(** C4, amended. [Close] shuts the transport down with the caller's
    context, then closes the manager in the state the shutdown left,
    and returns the manager's result; the result of the shutdown is
    dropped. When the shutdown reports no error, what [Close] returns
    is the first error of the two steps. *)
Theorem Close_returns_manager_result
    (co : Collaborators) (ctx : context_Context) (s : Server) (wd : World) :
  Close ctx s wd
  = manager_Close (manager s) (snd (Shutdown ctx (http s) wd))
  /\ (fst (Shutdown ctx (http s) wd) = None ->
      fst (Close ctx s wd)
      = first_error (fst (Shutdown ctx (http s) wd))
          (fst (manager_Close (manager s) (snd (Shutdown ctx (http s) wd))))).
Proof.
  unfold Close. destruct (Shutdown ctx (http s) wd) as [e1 wd1].
  cbn [fst snd]. split; [reflexivity|].
  intros ->. reflexivity.
Qed.

(** On the scripted collaborators the two calls appear in the trace in
    this order, the shutdown with the caller's deadline. *)
Lemma Close_trace (ctx : Z) (s : Server) (sc : Script) :
  trace (snd (Close ctx s sc))
  = (trace sc ++ [EvShutdown ctx (http s); EvManagerClose (manager s)])%list.
Proof.
  unfold Close. cbn. rewrite <- app_assoc. reflexivity.
Qed.

Lemma Close_returns_manager_result_witness :
  Close 5000 a_server clean_transport
  = manager_Close (manager a_server)
      (snd (Shutdown 5000 (http a_server) clean_transport))
  /\ fst (Close 5000 a_server clean_transport)
     = first_error (fst (Shutdown 5000 (http a_server) clean_transport))
         (fst (manager_Close (manager a_server)
                 (snd (Shutdown 5000 (http a_server) clean_transport)))).
Proof.
  split.
  - exact (proj1 (Close_returns_manager_result Scripted 5000 a_server clean_transport)).
  - exact (proj2 (Close_returns_manager_result Scripted 5000 a_server clean_transport)
             eq_refl).
Defined.

(** ** Registration *)

Lemma credentials_configured_true (cfg : Config) :
  credentials_configured cfg = true
  <-> Username cfg <> EmptyString /\ Password cfg <> EmptyString.
Proof.
  unfold credentials_configured.
  rewrite andb_true_iff, !negb_true_iff, !String.eqb_neq. reflexivity.
Qed.

Lemma credentials_configured_false (cfg : Config) :
  credentials_configured cfg = false
  <-> Username cfg = EmptyString \/ Password cfg = EmptyString.
Proof.
  unfold credentials_configured.
  rewrite andb_false_iff, !negb_false_iff, !String.eqb_eq. reflexivity.
Qed.

Section RegistrationFacts.
Context {rt : GoRuntime}.

Lemma router_Handle_Some (s : Server) (method path : string) (h : Handler)
    (ps : Process) (routes : list Route) :
  routers ps !! router s = Some routes ->
  router_Handle s method path h ps
  = Some (mkProcess
            (<[router s := (routes ++ [(method, path, h)])%list]> (routers ps))
            (penv ps)).
Proof. intros H. unfold router_Handle. rewrite H. reflexivity. Qed.

Lemma AddHandler_registers (method path : string) (handler : Handler)
    (s : Server) (ps : Process) :
  AddHandler method path handler s ps
  = router_Handle s method path (registered_chain s handler)
      (log_adding_handler method path ps).
Proof.
  unfold AddHandler, registered_chain, guarded, credentials_configured.
  reflexivity.
Qed.

Lemma AddServerHandler_registers (method path : string) (f : ServerHandler)
    (s : Server) (ps : Process) :
  AddServerHandler method path f s ps
  = router_Handle s method path (registered_chain s (f s))
      (log_adding_handler method path ps).
Proof.
  unfold AddServerHandler, registered_chain, guarded, credentials_configured.
  destruct (negb (Username (config s) =? EmptyString)%string
            && negb (Password (config s) =? EmptyString)%string); reflexivity.
Qed.

(** C10. Registering a server-aware handler factory is registering the
    plain handler the factory yields for the server: the two paths
    leave the same routers and the same log. *)
Theorem AddServerHandler_is_AddHandler (method path : string)
    (f : ServerHandler) (s : Server) (ps : Process) :
  AddServerHandler method path f s ps = AddHandler method path (f s) s ps.
Proof.
  rewrite AddServerHandler_registers, AddHandler_registers. reflexivity.
Qed.

(** C2, amended. For a server whose router is allocated, [AddHandler]
    and [AddServerHandler] append to the router one route whose chain
    is, from the outside in: the logger, then recovery, then the basic
    auth check exactly when both credentials are non-empty, then the
    business handler. *)
Theorem registered_chain_order (method path : string) (handler : Handler)
    (f : ServerHandler) (s : Server) (ps : Process) (routes : list Route) :
  routers ps !! router s = Some routes ->
  let chain (h : Handler) : Handler :=
    logger (recovery
              (if credentials_configured (config s)
               then basicAuth h (Username (config s)) (Password (config s))
               else h)) in
  let after (h : Handler) : Process :=
    mkProcess
      (<[router s := (routes ++ [(method, path, chain h)])%list]> (routers ps))
      (log_Info "adding handler"
         [FString "path" path; FString "method" method] (penv ps)) in
  AddHandler method path handler s ps = Some (after handler)
  /\ AddServerHandler method path f s ps = Some (after (f s)).
Proof.
  intros Hr chain after.
  rewrite AddServerHandler_registers, AddHandler_registers.
  split;
    (erewrite router_Handle_Some by (cbn [routers log_adding_handler]; exact Hr));
    reflexivity.
Qed.

End RegistrationFacts.

(** ** Middleware *)

Lemma Milliseconds_nonneg (d : Z) : 0 <= d -> 0 <= Milliseconds d.
Proof. intros Hd. unfold Milliseconds. apply Z.quot_pos; lia. Qed.

Section MiddlewareFacts.
Context {rt : GoRuntime}.

Lemma recovery_returned (h : Handler) (W : Type) (RW : ResponseWriter W)
    (w w' : W) (r : Request) (p : Params) (env env' : Env) :
  h W RW w r p env = (Returned, w', env') ->
  recovery h RW w r p env = (Returned, w', env').
Proof. intros H. unfold recovery. rewrite H. reflexivity. Qed.

Lemma recovery_panicked (h : Handler) (W : Type) (RW : ResponseWriter W)
    (w w' : W) (r : Request) (p : Params) (env env' : Env) (v : any) :
  h W RW w r p env = (Panicked v, w', env') ->
  recovery h RW w r p env
  = (Returned,
     write_500 (fst (json_Marshal (error_body v))) w',
     mkEnv (logs env' ++ [recovered_from_panic v env'])%list (now env')).
Proof.
  intros H. unfold recovery, write_500, error_body. rewrite H.
  destruct (json_Marshal _) as [jsonBody e]. cbn [fst].
  destruct (Write jsonBody _) as [res w3]. reflexivity.
Qed.

Lemma recovery_always_returns (h : Handler) (W : Type) (RW : ResponseWriter W)
    (w : W) (r : Request) (p : Params) (env : Env) :
  fst (fst (recovery h RW w r p env)) = Returned.
Proof.
  destruct (h W RW w r p env) as [[[|v] w'] env'] eqn:H.
  - erewrite recovery_returned by exact H. reflexivity.
  - erewrite recovery_panicked by exact H. reflexivity.
Qed.

(** What [recovery] does with a panic, on every runtime: it returns,
    appends one error-level entry with the description of the fault and
    a non-empty stack, and writes 500, the JSON content type and the
    encoding of the map that holds the message and the fault. *)
Lemma recovery_contains_panic (h : Handler) (W : Type) (RW : ResponseWriter W)
    (w w' : W) (r : Request) (p : Params) (env env' : Env) (v : any) :
  h W RW w r p env = (Panicked v, w', env') ->
  exists stack : string,
    stack <> EmptyString
    /\ recovery h RW w r p env
       = (Returned,
          snd (Write (fst (json_Marshal (error_body v)))
                 (WriteHeader 500
                    (Header_Set "Content-Type" "application/json" w'))),
          mkEnv (logs env'
                 ++ [mkEntry LevelError "recovered from panic"
                       [FString "error" (fmt_Sprintf_s v);
                        FString "stack" stack]])%list
                (now env')).
Proof.
  intros H. exists (debug_Stack env'). split.
  - apply debug_Stack_nonempty.
  - erewrite recovery_panicked by exact H. reflexivity.
Qed.

Lemma logger_returned (h : Handler) (W : Type) (RW : ResponseWriter W)
    (w : W) (r : Request) (p : Params) (env env' : Env) (sw' : statusWriter W) :
  h (statusWriter W) _ (mkStatusWriter w 0 0) r p env = (Returned, sw', env') ->
  logger h RW w r p env
  = (Returned, embedded sw',
     mkEnv (logs env'
            ++ [api_request r (status sw') (length sw')
                  (Milliseconds (now env' - now env))])%list
           (now env')).
Proof. intros H. unfold logger. rewrite H. reflexivity. Qed.

Lemma logger_panicked (h : Handler) (W : Type) (RW : ResponseWriter W)
    (w : W) (r : Request) (p : Params) (env env' : Env) (sw' : statusWriter W)
    (v : any) :
  h (statusWriter W) _ (mkStatusWriter w 0 0) r p env = (Panicked v, sw', env') ->
  logger h RW w r p env = (Panicked v, embedded sw', env').
Proof. intros H. unfold logger. rewrite H. reflexivity. Qed.

(** C5. When the handler under [logger] returns, be it a handler that
    returns by itself or one wrapped in [recovery], [logger] returns
    too and appends exactly one entry to what the handler logged: an
    info-level entry with the method, the URI and the remote address of
    the request, the status and byte count recorded by the status
    writer, and the elapsed milliseconds, which are at least 0 on a
    clock that does not run backwards. *)
Theorem logger_emits_one_entry (h : Handler) (W : Type) (RW : ResponseWriter W)
    (w : W) (r : Request) (p : Params) (env : Env) :
  let run := h (statusWriter W) _ (mkStatusWriter w 0 0) r p env in
  let sw' := snd (fst run) in
  let env' := snd run in
  let ms := Milliseconds (now env' - now env) in
  (fst (fst run) = Returned \/ exists g, h = recovery g) ->
  now env <= now env' ->
  logger h RW w r p env
  = (Returned, embedded sw',
     mkEnv (logs env'
            ++ [mkEntry LevelInfo "api request"
                  [FString "method" (Method r);
                   FString "uri" (URL r);
                   FString "requester" (RemoteAddr r);
                   FInt "status" (status sw');
                   FInt "content_length" (length sw');
                   FInt "duration_ms" ms]])%list
           (now env'))
  /\ 0 <= ms.
Proof.
  cbv zeta.
  destruct (h (statusWriter W) _ (mkStatusWriter w 0 0) r p env)
    as [[out sw1] env1] eqn:Hrun.
  cbn [fst snd]. intros Hret Hclock.
  assert (Hout : out = Returned).
  { destruct Hret as [H | [g ->]]; [exact H|].
    pose proof (recovery_always_returns g statusWriter_ResponseWriter
                  (mkStatusWriter w 0 0) r p env) as Hg.
    rewrite Hrun in Hg. exact Hg. }
  subst out. split.
  - apply logger_returned. exact Hrun.
  - apply Milliseconds_nonneg. lia.
Qed.

End MiddlewareFacts.

Section BasicAuthFacts.
Context {rt : GoRuntime}.

Lemma basicAuth_without_credentials (h : Handler) (user password : string)
    (W : Type) (RW : ResponseWriter W) (w : W) (r : Request) (ps : Params)
    (env : Env) :
  credentials r = None ->
  basicAuth h user password RW w r ps env = (Returned, unauthorized w, env).
Proof.
  intros H. unfold basicAuth, BasicAuth. rewrite H. reflexivity.
Qed.

(** Whatever pair the request presents, the comparison succeeds: each
    extracted value is compared with itself. *)
Lemma basicAuth_with_credentials (h : Handler) (user password : string)
    (W : Type) (RW : ResponseWriter W) (w : W) (r : Request) (ps : Params)
    (env : Env) (u pw : string) :
  credentials r = Some (u, pw) ->
  basicAuth h user password RW w r ps env = h W RW w r ps env.
Proof.
  intros H. unfold basicAuth, BasicAuth. rewrite H.
  rewrite !String.eqb_refl. reflexivity.
Qed.

Lemma basicAuth_spec_rejects (h : Handler) (user password : string)
    (W : Type) (RW : ResponseWriter W) (w : W) (r : Request) (ps : Params)
    (env : Env) :
  credentials r <> Some (user, password) ->
  basicAuth_spec h user password RW w r ps env = (Returned, unauthorized w, env).
Proof.
  intros H. unfold basicAuth_spec, BasicAuth.
  destruct (credentials r) as [[u pw]|]; [|reflexivity].
  cbn [andb].
  destruct (String.eqb_spec u user) as [->|Hu]; [|reflexivity].
  destruct (String.eqb_spec pw password) as [->|Hp]; [|reflexivity].
  contradiction H. reflexivity.
Qed.

Lemma guarded_without_credentials (s : Server) (h : Handler) :
  Username (config s) = EmptyString \/ Password (config s) = EmptyString ->
  guarded s h = h.
Proof.
  intros H. apply credentials_configured_false in H.
  unfold guarded. rewrite H. reflexivity.
Qed.

(** C8. On a server whose username or password is empty, both ways of
    registering store the chain [logger (recovery handler)], with no
    auth check in it; what runs beneath [logger] and [recovery] for a
    request is the business handler on that request, whether or not the
    request carries credentials. *)
Theorem no_credentials_no_auth (method path : string) (handler : Handler)
    (f : ServerHandler) (s : Server) (ps : Process) (routes : list Route) :
  Username (config s) = EmptyString \/ Password (config s) = EmptyString ->
  routers ps !! router s = Some routes ->
  let after (h : Handler) : Process :=
    mkProcess
      (<[router s := (routes ++ [(method, path, logger (recovery h))])%list]>
         (routers ps))
      (log_Info "adding handler"
         [FString "path" path; FString "method" method] (penv ps)) in
  AddHandler method path handler s ps = Some (after handler)
  /\ AddServerHandler method path f s ps = Some (after (f s))
  /\ (forall (W : Type) (RW : ResponseWriter W) (w : W) (r : Request)
        (p : Params) (env : Env),
        guarded s handler RW w r p env = handler W RW w r p env
        /\ registered_chain s handler RW w r p env
           = logger (recovery handler) RW w r p env
        /\ (forall (sw' : statusWriter W) (env' : Env),
              handler (statusWriter W) _ (mkStatusWriter w 0 0) r p env
              = (Returned, sw', env') ->
              registered_chain s handler RW w r p env
              = (Returned, embedded sw',
                 mkEnv (logs env'
                        ++ [api_request r (status sw') (length sw')
                              (Milliseconds (now env' - now env))])%list
                       (now env')))).
Proof.
  intros Hcfg Hr after.
  rewrite AddServerHandler_registers, AddHandler_registers.
  unfold registered_chain. rewrite !(guarded_without_credentials _ _ Hcfg).
  split; [|split].
  - erewrite router_Handle_Some by (cbn [routers log_adding_handler]; exact Hr).
    reflexivity.
  - erewrite router_Handle_Some by (cbn [routers log_adding_handler]; exact Hr).
    reflexivity.
  - intros W RW w r p env. split; [reflexivity|]. split; [reflexivity|].
    intros sw' env' Hrun.
    apply logger_returned, recovery_returned, Hrun.
Qed.

End BasicAuthFacts.

(** C1, at the failing input. The route is guarded with the pair
    admin/s3cret and the request presents mallory/guess: [basicAuth]
    runs the inner handler, which answers 200 with the protected body,
    where the check the specification describes answers 401 with the
    text Unauthorized. *)
Theorem basicAuth_admits_wrong_credentials :
  let run :=
    basicAuth secret_handler "admin" "s3cret"
      Recorder_ResponseWriter Recorder_new wrong_request [] env0 in
  run = secret_handler Recorder_ResponseWriter Recorder_new
          wrong_request [] env0
  /\ rec_code (snd (fst run)) = 200
  /\ rec_body (snd (fst run)) = "secret"
  /\ basicAuth_spec secret_handler "admin" "s3cret"
       Recorder_ResponseWriter Recorder_new wrong_request [] env0
     = (Returned, unauthorized Recorder_new, env0)
  /\ rec_code (unauthorized Recorder_new) = 401
  /\ rec_body (unauthorized Recorder_new) = "Unauthorized" ++ LF.
Proof. repeat split. Qed.

(** The same on the registered route: the chain stored for a secured
    server lets the request through to the handler. *)
Lemma secured_route_admits_wrong_credentials :
  match stored secured_server "GET" "/secret"
          (AddHandler "GET" "/secret" secret_handler secured_server a_process) with
  | Some chain =>
      let run := chain Recorder Recorder_ResponseWriter Recorder_new
                   wrong_request [] env0 in
      rec_code (snd (fst run)) = 200 /\ rec_body (snd (fst run)) = "secret"
  | None => False
  end.
Proof. cbn. split; reflexivity. Qed.

(** C3, at the failing input. The handler panics with an error value
    whose description is boom: [recovery] returns, logs one error entry
    with that description and a stack, and answers 500 with the JSON
    content type; the error member of the body is the empty object,
    where the claim has the description. *)
Theorem recovery_body_for_error_panic :
  let v := VError (errorString "boom") in
  let run :=
    recovery boom_err Recorder_ResponseWriter Recorder_new a_request [] env0 in
  fst (fst run) = Returned
  /\ logs (snd run)
     = [mkEntry LevelError "recovered from panic"
          [FString "error" "boom"; FString "stack" a_stack]]
  /\ rec_code (snd (fst run)) = 500
  /\ rec_header (snd (fst run)) = [("Content-Type", "application/json")]
  /\ rec_body (snd (fst run))
     = "{" ++ json_quote "error" ++ ":{},"
       ++ json_quote "message" ++ ":"
       ++ json_quote "There was an internal server error" ++ "}"
  /\ fst (json_Marshal (described_body v))
     = "{" ++ json_quote "error" ++ ":" ++ json_quote "boom" ++ ","
       ++ json_quote "message" ++ ":"
       ++ json_quote "There was an internal server error" ++ "}"
  /\ rec_body (snd (fst run)) <> fst (json_Marshal (described_body v)).
Proof.
  cbv zeta. repeat split. vm_compute. discriminate.
Qed.

(** For a panic with a string, as in [panic("x")], the error member of
    the body is the description. *)
Lemma recovery_body_for_string_panic :
  rec_body (snd (fst (recovery boom Recorder_ResponseWriter Recorder_new
                        a_request [] env0)))
  = fst (json_Marshal (described_body (VString "x")))
  /\ fst (json_Marshal (described_body (VString "x")))
     = "{" ++ json_quote "error" ++ ":" ++ json_quote "x" ++ ","
       ++ json_quote "message" ++ ":"
       ++ json_quote "There was an internal server error" ++ "}".
Proof. split; reflexivity. Qed.

(** C2, as stated, fails: the chain the router holds after a
    registration is not the one with recovery outermost and the logger
    beneath it. The two differ on a handler that panics: with the
    logger outermost the request is logged. *)
Lemma claimed_chain_is_not_registered :
  stored a_server "GET" "/boom"
    (AddHandler "GET" "/boom" boom a_server a_process)
  <> Some (claimed_chain a_server boom).
Proof.
  change (stored a_server "GET" "/boom"
            (AddHandler "GET" "/boom" boom a_server a_process))
    with (Some (logger (recovery boom))).
  intros H. injection H as H.
  apply (f_equal (fun c : Handler =>
                    List.length (logs (snd (c Recorder Recorder_ResponseWriter
                                             Recorder_new a_request [] env0)))))
    in H.
  vm_compute in H. discriminate H.
Qed.

(** The registration of C2 on the secured server: the auth check sits
    innermost, around the business handler. *)
Lemma registered_chain_order_witness :
  AddHandler "GET" "/secret" secret_handler secured_server a_process
  = Some (mkProcess
            (<[2%positive :=
                 [("GET", "/secret",
                   logger (recovery (basicAuth secret_handler "admin" "s3cret")))]]>
               (routers a_process))
            (log_Info "adding handler"
               [FString "path" "/secret"; FString "method" "GET"] env0))
  /\ AddServerHandler "GET" "/secret" (fun _ => secret_handler)
       secured_server a_process
     = Some (mkProcess
               (<[2%positive :=
                    [("GET", "/secret",
                      logger (recovery (basicAuth secret_handler "admin" "s3cret")))]]>
                  (routers a_process))
               (log_Info "adding handler"
                  [FString "path" "/secret"; FString "method" "GET"] env0)).
Proof.
  exact (registered_chain_order "GET" "/secret" secret_handler
           (fun _ => secret_handler) secured_server a_process eq_refl).
Defined.

(** The registration of C8 on the server without credentials, and a
    request with credentials reaching the handler through the chain. *)
Lemma no_credentials_no_auth_witness :
  AddHandler "GET" "/secret" secret_handler a_server a_process
  = Some (mkProcess
            (<[2%positive :=
                 [("GET", "/secret", logger (recovery secret_handler))]]>
               (routers a_process))
            (log_Info "adding handler"
               [FString "path" "/secret"; FString "method" "GET"] env0))
  /\ guarded a_server secret_handler Recorder_ResponseWriter Recorder_new
       wrong_request [] env0
     = secret_handler Recorder_ResponseWriter Recorder_new wrong_request [] env0
  /\ registered_chain a_server secret_handler Recorder_ResponseWriter
       Recorder_new wrong_request [] env0
     = (Returned, mkRecorder [] 200 true "secret",
        mkEnv [api_request wrong_request 200 6 0] 1000000000).
Proof.
  pose proof (no_credentials_no_auth "GET" "/secret" secret_handler
                (fun _ => secret_handler) a_server a_process
                (or_introl eq_refl) eq_refl) as [Hadd [_ Hrun]].
  split; [exact Hadd|]. split.
  - exact (proj1 (Hrun Recorder Recorder_ResponseWriter Recorder_new
                    wrong_request [] env0)).
  - exact (proj2 (proj2 (Hrun Recorder Recorder_ResponseWriter Recorder_new
                           wrong_request [] env0))
             (mkStatusWriter (mkRecorder [] 200 true "secret") 200 6)
             env0 eq_refl).
Defined.

(** The request of C5 on [ok_handler]: status 200, two bytes, three
    milliseconds. *)
Lemma logger_emits_one_entry_witness :
  logger ok_handler Recorder_ResponseWriter Recorder_new a_request [] env0
  = (Returned,
     mkRecorder [] 200 true "ok",
     mkEnv [mkEntry LevelInfo "api request"
              [FString "method" "GET";
               FString "uri" "/health";
               FString "requester" "10.0.0.9:4242";
               FInt "status" 200;
               FInt "content_length" 2;
               FInt "duration_ms" 3]]
           1003000000)
  /\ 0 <= 3.
Proof.
  exact (@logger_emits_one_entry StdGo ok_handler Recorder
           Recorder_ResponseWriter Recorder_new
           a_request [] env0 (or_introl eq_refl)
           (Zle_bool_imp_le 1000000000 1003000000 eq_refl)).
Defined.

(** * Further properties *)

(** ** The status writer under arbitrary calls *)

Lemma wrap_int_range (z : Z) : in_int_range (wrap_int z).
Proof.
  unfold in_int_range, wrap_int.
  pose proof (Z.mod_pos_bound (z + 2 ^ 63) (2 ^ 64) ltac:(lia)). lia.
Qed.

Lemma wrap_int_add_l (a b : Z) : wrap_int (wrap_int a + b) = wrap_int (a + b).
Proof.
  unfold wrap_int.
  replace ((a + 2 ^ 63) mod 2 ^ 64 - 2 ^ 63 + b + 2 ^ 63)
    with ((a + 2 ^ 63) mod 2 ^ 64 + b) by lia.
  rewrite Zplus_mod_idemp_l.
  replace (a + 2 ^ 63 + b) with (a + b + 2 ^ 63) by lia. reflexivity.
Qed.

Section CallFacts.
Context {W : Type} `{!ResponseWriter W}.

Lemma do_call_embedded (c : WriterCall) (sw : statusWriter W) :
  embedded (do_call c sw) = do_call c (embedded sw).
Proof.
  destruct c as [k v|st|b]; cbn [do_call]; [reflexivity| reflexivity|].
  apply statusWriter_Write_embedded.
Qed.

Lemma returned_count_embedded (c : WriterCall) (sw : statusWriter W) :
  returned_count c sw = returned_count c (embedded sw).
Proof.
  destruct c as [k v|st|b]; cbn [returned_count]; [reflexivity| reflexivity|].
  rewrite statusWriter_Write_result. reflexivity.
Qed.

Lemma do_call_length (c : WriterCall) (sw : statusWriter W) :
  in_int_range (length sw) ->
  length (do_call c sw) = wrap_int (length sw + returned_count c (embedded sw))
  /\ in_int_range (length (do_call c sw)).
Proof.
  intros Hr. destruct c as [k v|st|b]; cbn [do_call returned_count].
  - rewrite Z.add_0_r, wrap_int_small by exact Hr. split; [reflexivity|exact Hr].
  - rewrite Z.add_0_r, wrap_int_small by exact Hr. split; [reflexivity|exact Hr].
  - rewrite statusWriter_Write_length. split; [reflexivity|apply wrap_int_range].
Qed.

Lemma run_calls_length (cs : list WriterCall) (sw : statusWriter W) :
  in_int_range (length sw) ->
  length (run_calls cs sw) = wrap_int (length sw + accepted cs (embedded sw)).
Proof.
  revert sw. induction cs as [|c rest IH]; intros sw Hr.
  - cbn [run_calls fold_left accepted].
    rewrite Z.add_0_r, wrap_int_small by exact Hr. reflexivity.
  - change (run_calls (c :: rest) sw) with (run_calls rest (do_call c sw)).
    destruct (do_call_length c sw Hr) as [Hlen Hr'].
    rewrite (IH _ Hr'), Hlen, do_call_embedded, wrap_int_add_l.
    cbn [accepted]. f_equal. lia.
Qed.

Lemma do_call_status (c : WriterCall) (sw : statusWriter W) :
  is_WriteHeader c = false ->
  status (do_call c sw)
  = if status sw =? 0 then (if is_Write c then 200 else 0) else status sw.
Proof.
  intros Hc. destruct c as [k v|st|b]; [|discriminate Hc|].
  - cbn. destruct (Z.eqb_spec (status sw) 0) as [E|E]; [exact E|reflexivity].
  - cbn [do_call is_Write]. rewrite statusWriter_Write_status. reflexivity.
Qed.

Lemma run_calls_embedded (cs : list WriterCall) (sw : statusWriter W) :
  embedded (run_calls cs sw) = run_calls cs (embedded sw).
Proof.
  revert sw. induction cs as [|c rest IH]; intros sw; [reflexivity|].
  change (run_calls (c :: rest) sw) with (run_calls rest (do_call c sw)).
  change (run_calls (c :: rest) (embedded sw))
    with (run_calls rest (do_call c (embedded sw))).
  rewrite IH, do_call_embedded. reflexivity.
Qed.

Lemma accepted_embedded (cs : list WriterCall) (sw : statusWriter W) :
  accepted cs sw = accepted cs (embedded sw).
Proof.
  revert sw. induction cs as [|c rest IH]; intros sw; [reflexivity|].
  cbn [accepted]. rewrite IH, do_call_embedded, returned_count_embedded.
  reflexivity.
Qed.

End CallFacts.

(** X1. The status writer is transparent: whatever calls are made on
    it, the embedded writer receives the same calls in the same order,
    and every [Write] returns the byte count the embedded writer
    returned. *)
Theorem statusWriter_forwards_calls (W : Type) (RW : ResponseWriter W)
    (cs : list WriterCall) (sw : statusWriter W) :
  embedded (run_calls cs sw) = run_calls cs (embedded sw)
  /\ accepted cs sw = accepted cs (embedded sw).
Proof.
  split; [apply run_calls_embedded | apply accepted_embedded].
Qed.

(** X2. On a fresh status writer the recorded length is the sum of the
    byte counts the underlying writer returned, wrapped to [int]: it
    counts what was accepted, not what was handed in; as long as that
    sum fits an [int] it is the recorded length. *)
Theorem statusWriter_length_is_accepted (W : Type) (RW : ResponseWriter W)
    (cs : list WriterCall) (w : W) :
  length (run_calls cs (mkStatusWriter w 0 0)) = wrap_int (accepted cs w)
  /\ (in_int_range (accepted cs w) ->
      length (run_calls cs (mkStatusWriter w 0 0)) = accepted cs w).
Proof.
  assert (H0 : in_int_range (length (mkStatusWriter w 0 0)))
    by (unfold in_int_range; cbn [length]; lia).
  pose proof (run_calls_length cs _ H0) as H. cbn [length embedded] in H.
  rewrite Z.add_0_l in H. split; [exact H|].
  intros Hr. rewrite H. apply wrap_int_small. exact Hr.
Qed.

(** X2 on the response recorder, which accepts every byte: 5 + 0 + 7. *)
Lemma statusWriter_length_is_accepted_witness :
  length (run_calls [CallWrite "hello"; CallWriteHeader 404; CallWrite "goodbye"]
            (mkStatusWriter Recorder_new 0 0)) = 12.
Proof.
  apply (proj2 (statusWriter_length_is_accepted Recorder_ResponseWriter
                  [CallWrite "hello"; CallWriteHeader 404; CallWrite "goodbye"]
                  Recorder_new)).
  split; vm_compute; [discriminate | reflexivity].
Defined.

(** X3. Only [WriteHeader] sets a status of the caller's choice: over
    calls that contain no [WriteHeader], a recorded nonzero status
    stays as it is, and a writer without status ends at 200 if there
    was a [Write] and stays at 0 (nothing recorded) if there was none. *)
Theorem status_without_WriteHeader (W : Type) (RW : ResponseWriter W)
    (cs : list WriterCall) (sw : statusWriter W) :
  forallb (fun c => negb (is_WriteHeader c)) cs = true ->
  status (run_calls cs sw)
  = if status sw =? 0
    then (if existsb is_Write cs then 200 else 0)
    else status sw.
Proof.
  revert sw. induction cs as [|c rest IH]; intros sw Hcs.
  - cbn. destruct (Z.eqb_spec (status sw) 0) as [E|E]; [exact E|reflexivity].
  - cbn [forallb] in Hcs. apply andb_true_iff in Hcs as [Hc Hrest].
    apply negb_true_iff in Hc.
    change (run_calls (c :: rest) sw) with (run_calls rest (do_call c sw)).
    rewrite (IH _ Hrest), (do_call_status c sw Hc). cbn [existsb].
    destruct (Z.eqb_spec (status sw) 0) as [E|E].
    + destruct (is_Write c); cbn [orb]; reflexivity.
    + apply Z.eqb_neq in E. rewrite E. reflexivity.
Qed.

(** X3 on a writer that only had headers set: no status is recorded. *)
Lemma status_without_WriteHeader_witness :
  status (run_calls [CallHeaderSet "Cache-Control" "no-store"]
            (mkStatusWriter Recorder_new 0 0)) = 0.
Proof.
  exact (status_without_WriteHeader Recorder_ResponseWriter
           [CallHeaderSet "Cache-Control" "no-store"]
           (mkStatusWriter Recorder_new 0 0) eq_refl).
Defined.

(** ** The middlewares composed *)

Section ChainFacts.
Context {rt : GoRuntime}.


Lemma unauthorized_statusWriter (W : Type) (RW : ResponseWriter W)
    (sw : statusWriter W) :
  status (unauthorized sw) = 401
  /\ length (unauthorized sw)
     = wrap_int
         (length sw
          + fst (fst (Write ("Unauthorized" ++ LF)
                        (WriteHeader 401
                           (Header_Set "X-Content-Type-Options" "nosniff"
                              (Header_Set "Content-Type" "text/plain; charset=utf-8"
                                 (embedded sw)))))))
  /\ embedded (unauthorized sw) = unauthorized (embedded sw).
Proof.
  unfold unauthorized, http_Error.
  rewrite statusWriter_Write_status, statusWriter_Write_length,
    statusWriter_Write_embedded.
  repeat split.
Qed.




(** X7. On a server with both credentials configured, a request without
    credentials is answered by the chain with the 401 response of
    [http.Error] and logged with status 401; the result is the same for
    every handler, which is not run. *)
Theorem anonymous_request_rejected (s : Server) (h : Handler)
    (W : Type) (RW : ResponseWriter W) (w : W) (r : Request) (p : Params)
    (env : Env) :
  credentials_configured (config s) = true ->
  credentials r = None ->
  let n :=
    fst (fst (Write ("Unauthorized" ++ LF)
                (WriteHeader 401
                   (Header_Set "X-Content-Type-Options" "nosniff"
                      (Header_Set "Content-Type" "text/plain; charset=utf-8" w))))) in
  registered_chain s h RW w r p env
  = (Returned, unauthorized w,
     mkEnv (logs env ++ [api_request r 401 (wrap_int n) 0])%list (now env)).
Proof.
  intros Hcfg Hcred n. unfold registered_chain, guarded. rewrite Hcfg.
  erewrite logger_returned.
  2:{ apply recovery_returned. apply basicAuth_without_credentials. exact Hcred. }
  destruct (unauthorized_statusWriter RW (mkStatusWriter w 0 0)) as [Hst [Hlen Hemb]].
  rewrite Hst, Hlen, Hemb. cbn [length embedded].
  rewrite Z.add_0_l, Z.sub_diag. reflexivity.
Qed.

(** X8. [basicAuth] never reads the configured pair: it behaves the
    same for every user and password it is set up with, and a request
    that carries any well-formed credentials is handed to the handler. *)
Theorem basicAuth_ignores_configured_pair (h : Handler)
    (user password user' password' : string)
    (W : Type) (RW : ResponseWriter W) (w : W) (r : Request) (ps : Params)
    (env : Env) :
  basicAuth h user password RW w r ps env
  = basicAuth h user' password' RW w r ps env
  /\ (forall u pw : string,
        credentials r = Some (u, pw) ->
        basicAuth h user password RW w r ps env = h W RW w r ps env).
Proof.
  split.
  - unfold basicAuth. reflexivity.
  - intros u pw Hc. eapply basicAuth_with_credentials. exact Hc.
Qed.

(** X9 (logging is transparent). For a handler that makes a sequence of
    calls on its writer and returns, the writer under [logger] receives
    exactly those calls, and the entry carries the status the calls
    recorded, the byte count the writer accepted and the elapsed
    milliseconds. *)
Theorem logger_is_transparent (cs : list WriterCall) (elapsed : Z)
    (W : Type) (RW : ResponseWriter W) (w : W) (r : Request) (p : Params)
    (env : Env) :
  logger (calling_handler cs elapsed) RW w r p env
  = (Returned, run_calls cs w,
     mkEnv (logs env
            ++ [api_request r
                  (status (run_calls cs (mkStatusWriter w 0 0)))
                  (wrap_int (accepted cs w))
                  (Milliseconds elapsed)])%list
           (now env + elapsed)).
Proof.
  erewrite logger_returned by reflexivity.
  rewrite run_calls_embedded, run_calls_length
    by (unfold in_int_range; cbn [length]; lia).
  cbn [embedded length logs now]. rewrite Z.add_0_l.
  replace (now env + elapsed - now env) with elapsed by lia. reflexivity.
Qed.

End ChainFacts.


(** X7 on the secured server: the 401 goes out and is logged, whatever
    the handler is. *)
Lemma anonymous_request_rejected_witness :
  registered_chain secured_server secret_handler Recorder_ResponseWriter
    Recorder_new anonymous_request [] env0
  = (Returned,
     mkRecorder [("X-Content-Type-Options", "nosniff");
                 ("Content-Type", "text/plain; charset=utf-8")]
       401 true ("Unauthorized" ++ LF),
     mkEnv [api_request anonymous_request 401 13 0] 1000000000).
Proof.
  exact (@anonymous_request_rejected StdGo secured_server secret_handler
           Recorder Recorder_ResponseWriter Recorder_new anonymous_request []
           env0 eq_refl eq_refl).
Defined.

(** X8 on the pair mallory/guess. *)
Lemma basicAuth_ignores_configured_pair_witness :
  basicAuth secret_handler "admin" "s3cret" Recorder_ResponseWriter
    Recorder_new wrong_request [] env0
  = secret_handler Recorder_ResponseWriter Recorder_new wrong_request [] env0.
Proof.
  exact (proj2 (@basicAuth_ignores_configured_pair StdGo secret_handler
                  "admin" "s3cret" "root" "toor" Recorder
                  Recorder_ResponseWriter Recorder_new wrong_request [] env0)
           "mallory" "guess" eq_refl).
Defined.

(** ** Start and the cause of its error *)

(** X10. When the serve loop ends with an error other than the
    [http.ErrServerClosed] value itself, the error of [Start] wraps it:
    its message is the prefix of [Start] followed by the message of the
    cause, and [errors.Unwrap] gives the cause back. The test is by
    identity, so an error that wraps [http.ErrServerClosed] is reported
    like any other. *)
Theorem Start_wraps_cause (co : Collaborators) (s : Server) (wd : World)
    (cause : error) :
  fst (ListenAndServe (http s) wd) = Some cause ->
  cause <> ErrServerClosed ->
  exists e : error,
    fst (Start s wd) = Some e
    /\ errors_Unwrap e = Some cause
    /\ error_Error e = "server: error starting http: " ++ error_Error cause.
Proof.
  intros Hserve Hcause. unfold Start.
  destruct (ListenAndServe (http s) wd) as [err wd']. cbn [fst] in Hserve.
  subst err.
  assert (Hno : is_ErrServerClosed (Some cause) = false).
  { destruct cause; [contradiction Hcause; reflexivity | reflexivity | reflexivity]. }
  rewrite Hno. cbn [negb fst].
  eexists. repeat split.
Qed.

(** X10 on a loop whose error wraps [http.ErrServerClosed]. *)
Lemma Start_wraps_cause_witness :
  exists e : error,
    fst (Start a_server wrapped_closed_loop) = Some e
    /\ errors_Unwrap e
       = Some (wrapError "accept: http: Server closed" (Some ErrServerClosed))
    /\ error_Error e
       = "server: error starting http: accept: http: Server closed".
Proof.
  exact (@Start_wraps_cause Scripted a_server wrapped_closed_loop
           (wrapError "accept: http: Server closed" (Some ErrServerClosed))
           eq_refl ltac:(discriminate)).
Defined.
